(** * Two Express services wired over HTTP: a shallow embedding

    The repository holds a user directory and an order ledger, in a plain
    variant and in a monorepo variant with a shared package.  This file
    embeds the request handlers, the lookup clients and the shared helpers
    as Rocq functions and proves what they do.

    Conventions.
    - A JSON document is a value of [Json]; JavaScript's [undefined] is the
      [None] of [option Json].
    - A handler runs in the monad [M S]: it reads and writes the state [S] of
      its service, completes normally or throws, and records the URLs of the
      outbound HTTP requests it issued.  A handler's normal result is the
      response it sent; a [Throw] is a rejection leaving the handler.
    - [console.log] and [console.error] are not modelled. *)

From Stdlib Require Import String Ascii List Bool Arith ZArith QArith Lia DecimalString.
Import ListNotations.
Close Scope Q_scope.
Open Scope string_scope.

Set Implicit Arguments.
Set Warnings "-register-all".

(** ** JSON values and the JavaScript operations the code applies to them *)

Inductive Json : Type :=
| JNull
| JBool (b : bool)
| JNum (q : Q)
| JStr (s : string)
| JArr (items : list Json)
| JObj (fields : list (string * Json)).

(** JavaScript truthiness ([!v], [v || w]). *)
Definition truthy (v : Json) : bool :=
  match v with
  | JNull => false
  | JBool b => b
  | JNum q => negb (Qeq_bool q 0)
  | JStr s => negb (s =? "")
  | JArr _ => true
  | JObj _ => true
  end.

(** First binding of a key in an object literal's field list. *)
Fixpoint assoc (k : string) (fields : list (string * Json)) : option Json :=
  match fields with
  | [] => None
  | (k', v) :: rest => if k' =? k then Some v else assoc k rest
  end.

(** What is thrown: an [Error] object with its message, or any other value,
    kept as its [String(...)] rendering. *)
Inductive Thrown : Type :=
| ErrorObject (message : string)
| ThrownValue (rendered : string).

Inductive Completion (A : Type) : Type :=
| Normal (a : A)
| Throw (e : Thrown).
Arguments Throw {A} e.

(** Property read [v.k]: a field of an object, [undefined] on other
    non-null values (for the keys used here), a TypeError on [null]. *)
Definition get_prop (v : Json) (k : string) : Completion (option Json) :=
  match v with
  | JNull => Throw (ErrorObject ("Cannot read properties of null (reading '" ++ k ++ "')"))
  | JObj fields => Normal (assoc k fields)
  | _ => Normal None
  end.

(** [v || null] on a possibly undefined value. *)
Definition or_null (v : option Json) : Json :=
  match v with
  | Some j => if truthy j then j else JNull
  | None => JNull
  end.

(** ** The handler monad: state, exceptions, outbound requests *)

Record Result (S A : Type) : Type := mkResult {
  outcome : Completion A;
  state : S;
  requests : list string
}.

Definition M (S A : Type) : Type := S -> Result S A.

Definition ret {S A} (a : A) : M S A :=
  fun s => mkResult (Normal a) s [].

Definition throw {S A} (e : Thrown) : M S A :=
  fun s => mkResult (Throw e) s [].

Definition bind {S A B} (m : M S A) (k : A -> M S B) : M S B :=
  fun s =>
    let r := m s in
    match outcome r with
    | Normal a =>
        let r' := k a (state r) in
        mkResult (outcome r') (state r') (requests r ++ requests r')
    | Throw e => mkResult (Throw e) (state r) (requests r)
    end.

(** [try { m } catch (e) { h e }]: what [m] did to the state before it threw
    stays done. *)
Definition try_catch {S A} (m : M S A) (h : Thrown -> M S A) : M S A :=
  fun s =>
    let r := m s in
    match outcome r with
    | Normal _ => r
    | Throw e =>
        let r' := h e (state r) in
        mkResult (outcome r') (state r') (requests r ++ requests r')
    end.

Definition lift {S A} (c : Completion A) : M S A :=
  fun s => mkResult c s [].

Definition modify {S} (f : S -> S) : M S unit :=
  fun s => mkResult (Normal tt) (f s) [].

Definition read {S} : M S S :=
  fun s => mkResult (Normal s) s [].

Declare Scope handler_scope.
Delimit Scope handler_scope with handler.
Notation "x <- m ;; k" := (bind m (fun x => k))
  (at level 61, m at next level, right associativity) : handler_scope.
Notation "m ;;; k" := (bind m (fun _ => k))
  (at level 61, right associativity) : handler_scope.
Open Scope handler_scope.

(** ** HTTP as the code sees it *)

Record HttpResponse : Type := mkResponse {
  status : Z;
  body : Json
}.

(** [res.status(c).json(b)]; [res.json(b)] alone answers 200. *)
Definition respond (c : Z) (b : Json) : HttpResponse := mkResponse c b.
Definition respond_ok (b : Json) : HttpResponse := mkResponse 200 b.

Inductive TransportFailure : Type :=
| ConnectionError (code : string)
| TimedOut.

(** One exchange with the remote host: no response at all, or a response. *)
Inductive NetOutcome : Type :=
| NetFailure (f : TransportFailure)
| NetResponse (r : HttpResponse).

(** What the world answers to a GET of a URL. *)
Definition Network : Type := string -> NetOutcome.

(** An axios instance: its configuration and the transport it talks through. *)
Record HttpClient : Type := mkClient {
  baseURL : option string;
  timeout : Z;
  transport : Network
}.

Definition decimal (z : Z) : string := NilZero.string_of_int (Z.to_int z).

(** axios resolves on a status accepted by the default [validateStatus]
    (2xx) and rejects with an Error otherwise, as it does when the exchange
    fails or exceeds [timeout]. *)
Definition validateStatus (c : Z) : bool := ((200 <=? c) && (c <? 300))%Z.

Definition settle (client : HttpClient) (o : NetOutcome) : Completion HttpResponse :=
  match o with
  | NetFailure (ConnectionError code) => Throw (ErrorObject code)
  | NetFailure TimedOut =>
      Throw (ErrorObject ("timeout of " ++ decimal (timeout client) ++ "ms exceeded"))
  | NetResponse r =>
      if validateStatus (status r) then Normal r
      else Throw (ErrorObject ("Request failed with status code " ++ decimal (status r)))
  end.

(** [client.get(url)]: one outbound request, recorded. *)
Definition http_get {S} (client : HttpClient) (url : string) : M S HttpResponse :=
  fun s => mkResult (settle client (transport client url)) s [url].

(** [process.env.X || fallback]. *)
Definition env_or (v : option string) (fallback : string) : string :=
  match v with
  | Some s => if s =? "" then fallback else s
  | None => fallback
  end.

(** ** packages/shared *)

Module Shared.

(** httpClient.ts: [createHttpClient(baseURL?, timeout = 3000)]. *)
Definition createHttpClient (baseURL : option string) (timeout : option Z)
    (net : Network) : HttpClient :=
  mkClient baseURL (match timeout with Some t => t | None => 3000%Z end) net.

Definition httpClient (net : Network) : HttpClient := createHttpClient None None net.

(** The [ApiResponse<T>] envelope, as the object literals the handlers send. *)
Definition success (data : Json) : Json :=
  JObj [("success", JBool true); ("data", data)].
Definition failure (error : string) : Json :=
  JObj [("success", JBool false); ("error", JStr error)].

(** [formatError]: the message of an Error, [String(error)] of anything else. *)
Definition formatError (error : Thrown) : string :=
  match error with
  | ErrorObject message => message
  | ThrownValue rendered => rendered
  end.

End Shared.

Module User.
Record t : Type := mk { id : string; name : string; email : string }.
Definition to_json (u : t) : Json :=
  JObj [("id", JStr (id u)); ("name", JStr (name u)); ("email", JStr (email u))].
End User.

Module Order.
Record t : Type := mk {
  id : string;
  userId : string;
  product : string;
  quantity : Q;
  total : Q
}.
Definition to_json (o : t) : Json :=
  JObj [("id", JStr (id o)); ("userId", JStr (userId o)); ("product", JStr (product o));
        ("quantity", JNum (quantity o)); ("total", JNum (total o))].
End Order.

(** ** packages/shared: generateId

    [Math.random()] draws a double [x] with [0 <= x < 1].  [x.toString(36)]
    is ["0"] for zero and otherwise ["0."] followed by base-36 digits; which
    digits is left to the engine, so a draw is kept as the digits it renders
    to. *)

Definition alphabet36 : list ascii :=
  list_ascii_of_string "0123456789abcdefghijklmnopqrstuvwxyz".

Inductive Digit36 : Type :=
| D36 (n : nat) (bound : (n <? 36)%nat = true).

Definition digit_value (d : Digit36) : nat := let 'D36 n _ := d in n.
Definition digit_char (d : Digit36) : ascii := nth (digit_value d) alphabet36 "0"%char.

Inductive RandomDraw : Type :=
| DrawZero
| DrawFraction (first : Digit36) (rest : list Digit36).

Definition toString36 (x : RandomDraw) : string :=
  match x with
  | DrawZero => "0"
  | DrawFraction d ds => "0." ++ string_of_list_ascii (map digit_char (d :: ds))
  end.

(** JavaScript's [s.substring(from, to)] for [from <= to]; Rocq's
    [substring] takes the start and the length. *)
Definition js_substring (from to : nat) (s : string) : string :=
  substring from (to - from) s.

Definition generateId (x : RandomDraw) : string :=
  js_substring 2 15 (toString36 x).

(** ** monorepo/apps/user-service *)

(** Path segments as Express's router sees them: the pieces between
    slashes. *)
Fixpoint split_slash (s : string) : list string :=
  match s with
  | EmptyString => [EmptyString]
  | String c r =>
      if (c =? "/")%char then EmptyString :: split_slash r
      else match split_slash r with
           | h :: t => String c h :: t
           | [] => [String c EmptyString]
           end
  end.

Module UserService.

(** controllers/user.controller.ts: the seed set, the service's state. *)
Definition users : list User.t :=
  [ User.mk "1" "John Doe" "john@example.com";
    User.mk "2" "Jane Smith" "jane@example.com" ].

Definition getUsers : M (list User.t) HttpResponse :=
  us <- read ;;
  ret (respond_ok (Shared.success (JArr (map User.to_json us)))).

Definition getUserById (id : string) : M (list User.t) HttpResponse :=
  us <- read ;;
  match find (fun u => User.id u =? id) us with
  | None => ret (respond 404 (Shared.failure "User not found"))
  | Some user => ret (respond_ok (Shared.success (User.to_json user)))
  end.

(** No route matched: Express's final handler answers 404 with an HTML
    page, kept here as its message. *)
Definition no_route (path : string) : HttpResponse :=
  respond 404 (JStr ("Cannot GET " ++ path)).

(** routes/user.routes.ts: [get('/')] and [get('/:id')], matched without
    strict routing (a trailing slash is optional); [:id] is one non-empty
    segment. *)
Definition userRouter (path : string) (rest : list string) : M (list User.t) HttpResponse :=
  match rest with
  | [] => getUsers
  | [seg] => if seg =? "" then getUsers else getUserById seg
  | [seg; last] =>
      if (negb (seg =? "")) && (last =? "") then getUserById seg
      else ret (no_route path)
  | _ => ret (no_route path)
  end.

(** What the mounted router is left with: the mount point takes one slash
    after it along when more of the path follows. *)
Definition after_mount (rest : list string) : list string :=
  match rest with
  | seg :: (_ :: _) as tail => if seg =? "" then tail else rest
  | _ => rest
  end.

(** server.ts: [app.use('/users', userRouter)], for a GET of a pathname.
    The model is exact on pathnames made of letters, digits, [-], [_] and
    slashes; query strings, percent-escapes, dot segments and upper-case
    spellings of the mount point are outside it. *)
Definition app (path : string) : M (list User.t) HttpResponse :=
  match split_slash path with
  | root :: mount :: rest =>
      if (root =? "") && (mount =? "users") then userRouter path (after_mount rest)
      else ret (no_route path)
  | _ => ret (no_route path)
  end.

End UserService.


(** ** monorepo/apps/order-service *)

(** The JSON body of POST /orders, with the fields [createOrder] reads. *)
Module ReqBody.
Record t : Type := mk {
  userId : string;
  product : string;
  quantity : Q;
  total : Q
}.
End ReqBody.

Module OrderService.

(** services/user.service.ts *)
Definition userServiceUrl (USER_SERVICE_URL : option string) : string :=
  env_or USER_SERVICE_URL "http://localhost:4001".

Definition httpClient (USER_SERVICE_URL : option string) (net : Network) : HttpClient :=
  Shared.createHttpClient (Some (userServiceUrl USER_SERVICE_URL)) None net.

(** The client is bound to the directory's base URL: its transport answers
    the request path.  The value returned is whatever truthy JSON stood under
    [data], or [null]. *)
Definition getUserById {S} (client : HttpClient) (userId : string) : M S Json :=
  try_catch
    (response <- http_get client ("/users/" ++ userId) ;;
     data <- lift (get_prop (body response) "data") ;;
     ret (or_null data))
    (fun _ => ret JNull).

(** controllers/order.controller.ts: the state is the [orders] array. *)
Definition getOrders : M (list Order.t) HttpResponse :=
  orders <- read ;;
  ret (respond_ok (Shared.success (JArr (map Order.to_json orders)))).

(** [createOrder] is [try { createOrder_try } catch (error) { createOrder_catch }]. *)
Definition createOrder_try (client : HttpClient) (random : RandomDraw) (b : ReqBody.t)
    : M (list Order.t) HttpResponse :=
  user <- getUserById client (ReqBody.userId b) ;;
  if negb (truthy user) then
    ret (respond 404 (Shared.failure "User not found"))
  else
    let order :=
      Order.mk (generateId random) (ReqBody.userId b) (ReqBody.product b)
               (ReqBody.quantity b) (ReqBody.total b) in
    modify (fun orders => (orders ++ [order])%list) ;;;
    ret (respond 201 (Shared.success (Order.to_json order))).

Definition createOrder_catch (error : Thrown) : M (list Order.t) HttpResponse :=
  ret (respond 500 (Shared.failure "Failed to create order")).

Definition createOrder (client : HttpClient) (random : RandomDraw) (b : ReqBody.t)
    : M (list Order.t) HttpResponse :=
  try_catch (createOrder_try client random b) createOrder_catch.

(** middleware/error.middleware.ts *)
Definition errorHandler (err : Thrown) : HttpResponse :=
  respond 500 (Shared.failure (Shared.formatError err)).

End OrderService.

(** ** The plain variant's order service *)

Module PlainOrderService.

(** config/env.ts *)
Definition USER_SERVICE_URL (var : option string) : string :=
  env_or var "http://localhost:4001".

(** services/user.service.ts: no [try], the rejection propagates. *)
Definition getUserById {S} (client : HttpClient) (base : string) (id : string) : M S Json :=
  response <- http_get client (base ++ "/api/users/" ++ id) ;;
  ret (body response).

(** controllers/order.controller.ts, mounted at [/api/orders/:orderId]. *)
Definition getOrder {S} (client : HttpClient) (base : string) (orderId : string)
    : M S HttpResponse :=
  user <- getUserById client base "1" ;;
  ret (respond_ok (JObj [("orderId", JStr orderId); ("product", JStr "Laptop"); ("user", user)])).

End PlainOrderService.

(** ** The two monorepo services deployed together *)

Module System.

Inductive Link : Type :=
| LinkUp
| LinkDown (f : TransportFailure).

Record World : Type := mkWorld {
  users : list User.t;
  orders : list Order.t
}.

Definition initial : World := mkWorld UserService.users [].

(** The directory as the order service reaches it: the user service's app
    run on its current state, behind a link that may be down.  A throwing
    handler would be answered by the service's error middleware. *)
Definition directory (link : Link) (us : list User.t) : Network :=
  fun path =>
    match link with
    | LinkDown f => NetFailure f
    | LinkUp =>
        match outcome (UserService.app path us) with
        | Normal r => NetResponse r
        | Throw e => NetResponse (respond 500 (Shared.failure (Shared.formatError e)))
        end
    end.

(** The directory's state once it has served the requests sent to it. *)
Definition served (link : Link) (log : list string) (us : list User.t) : list User.t :=
  match link with
  | LinkDown _ => us
  | LinkUp => fold_left (fun us path => state (UserService.app path us)) log us
  end.

Definition run_order {A} (link : Link) (h : HttpClient -> M (list Order.t) A) (w : World)
    : Completion A * World :=
  let r := h (OrderService.httpClient None (directory link (users w))) (orders w) in
  (outcome r, mkWorld (served link (requests r) (users w)) (state r)).

Definition run_user {A} (h : M (list User.t) A) (w : World) : Completion A * World :=
  let r := h (users w) in
  (outcome r, mkWorld (state r) (orders w)).

(** The operations a caller can trigger. *)
Inductive Op : Type :=
| Lookup (userId : string)
| GetUser (id : string)
| GetUsers
| GetOrders
| CreateOrder (random : RandomDraw) (b : ReqBody.t).

Inductive Answer : Type :=
| Value (c : Completion Json)
| Reply (c : Completion HttpResponse).

Definition exec (link : Link) (op : Op) (w : World) : Answer * World :=
  match op with
  | Lookup userId =>
      let '(c, w') := run_order link (fun cl => OrderService.getUserById cl userId) w in
      (Value c, w')
  | GetUser id =>
      let '(c, w') := run_user (UserService.getUserById id) w in (Reply c, w')
  | GetUsers =>
      let '(c, w') := run_user UserService.getUsers w in (Reply c, w')
  | GetOrders =>
      let '(c, w') := run_order link (fun _ => OrderService.getOrders) w in (Reply c, w')
  | CreateOrder random b =>
      let '(c, w') := run_order link (fun cl => OrderService.createOrder cl random b) w in
      (Reply c, w')
  end.

(** A run: each call comes with the state of the link at that moment. *)
Fixpoint run (calls : list (Link * Op)) (w : World) : list Answer * World :=
  match calls with
  | [] => ([], w)
  | (link, op) :: rest =>
      let '(a, w1) := exec link op w in
      let '(answers, w2) := run rest w1 in
      (a :: answers, w2)
  end.

Definition reachable (w : World) : Prop :=
  exists calls, snd (run calls initial) = w.

End System.

(** ** Vocabulary of the statements *)

Definition chars (s : string) : list ascii := list_ascii_of_string s.

(** The answer both services give for an unknown user. *)
Definition user_not_found : HttpResponse :=
  respond 404 (Shared.failure "User not found").

(** A lookup that failed below the application: no response, or a
    server-error response. *)
Definition transport_level_failure (o : NetOutcome) : bool :=
  match o with
  | NetFailure _ => true
  | NetResponse r => (500 <=? status r)%Z
  end.

(** The exchange succeeded and its body carries the truthy value [d] under
    [data]. *)
Definition carries_payload (o : NetOutcome) (d : Json) : Prop :=
  exists r fields,
    o = NetResponse r /\ validateStatus (status r) = true /\
    body r = JObj fields /\ assoc "data" fields = Some d /\ truthy d = true.

(** What [response.data.data || null] yields on the body of a resolved
    exchange. *)
Definition payload_of (b : Json) : Json :=
  match b with
  | JObj fields => or_null (assoc "data" fields)
  | _ => JNull
  end.

(** A response is the error envelope [{success: false, error: message}]. *)
Definition error_envelope (r : HttpResponse) : Prop :=
  exists message, body r = Shared.failure message.

(** The data model's constraints on an order: [quantity] an integer above
    zero, [total] not negative. *)
Definition is_integer (q : Q) : bool := (Qnum q mod Zpos (Qden q) =? 0)%Z.
Definition valid_quantity (q : Q) : bool := is_integer q && (0 <? Qnum q)%Z.
Definition valid_total (q : Q) : bool := (0 <=? Qnum q)%Z.
Definition valid_order (o : Order.t) : bool :=
  valid_quantity (Order.quantity o) && valid_total (Order.total o).
Definition valid_body (b : ReqBody.t) : bool :=
  valid_quantity (ReqBody.quantity b) && valid_total (ReqBody.total b).

(** The order [createOrder] builds from a body and a random draw. *)
Definition order_of (random : RandomDraw) (b : ReqBody.t) : Order.t :=
  Order.mk (generateId random) (ReqBody.userId b) (ReqBody.product b)
           (ReqBody.quantity b) (ReqBody.total b).

(** Identifiers on which the routing model is exact: non-empty, made of
    letters, digits, [-] and [_]. *)
Definition is_id_char (c : ascii) : bool :=
  let n := nat_of_ascii c in
  (((48 <=? n) && (n <=? 57)) || ((65 <=? n) && (n <=? 90)) ||
   ((97 <=? n) && (n <=? 122)) || (n =? 45) || (n =? 95))%nat.
Definition identifier (s : string) : bool :=
  negb (s =? "") && forallb is_id_char (chars s).

(** The bodies of the [CreateOrder] calls of a run. *)
Fixpoint bodies (calls : list (System.Link * System.Op)) : list ReqBody.t :=
  match calls with
  | [] => []
  | (_, System.CreateOrder _ b) :: rest => b :: bodies rest
  | _ :: rest => bodies rest
  end.

(** The read operations: the lookup and the GET endpoints. *)
Definition is_query (op : System.Op) : bool :=
  match op with
  | System.Lookup _ => true
  | System.GetUser _ => true
  | System.GetUsers => true
  | System.GetOrders => true
  | System.CreateOrder _ _ => false
  end.

(** [n] executions of one operation in a row. *)
Definition repeat_op (link : System.Link) (op : System.Op) (n : nat)
    : list (System.Link * System.Op) :=
  repeat (link, op) n.

(** The base-36 digits a draw renders to: none for zero. *)
Definition digits_of (x : RandomDraw) : list Digit36 :=
  match x with
  | DrawZero => []
  | DrawFraction d ds => d :: ds
  end.

(** A reply with status 201, and how many of them a run received. *)
Definition is_created (a : System.Answer) : bool :=
  match a with
  | System.Reply (Normal r) => (status r =? 201)%Z
  | _ => false
  end.
Definition count_created (answers : list System.Answer) : nat :=
  length (filter is_created answers).

(** Every call of the run found the link down. *)
Definition all_down (calls : list (System.Link * System.Op)) : bool :=
  forallb (fun c => match fst c with
                    | System.LinkDown _ => true
                    | System.LinkUp => false
                    end) calls.


(** * Properties *)

Unset Implicit Arguments.

(** Unfolds the monad's operations in a handler applied to a state and
    projects the fields of the results built on the way. *)
Ltac run_handler :=
  unfold try_catch, bind, http_get, lift, ret, read, modify;
  cbn [outcome state requests].

(** The handlers' runs, as rewrite rules. *)
Create Rewrite HintDb runs.

(** ** generateId *)

Lemma substring_0_length (n : nat) (s : string) :
  String.length (substring 0 n s) <= n.
Proof.
  revert s; induction n as [|n IH]; intros [|c s]; simpl; try lia.
  specialize (IH s); lia.
Qed.

Lemma substring_0_chars (n : nat) (s : string) (c : ascii) :
  In c (chars (substring 0 n s)) -> In c (chars s).
Proof.
  revert s; induction n as [|n IH]; intros [|a s]; simpl; try tauto.
  intros [H|H]; [left; exact H | right; apply IH; exact H].
Qed.

Lemma digit_char_in_alphabet (d : Digit36) : In (digit_char d) alphabet36.
Proof.
  destruct d as [n bound]; unfold digit_char; simpl digit_value.
  apply nth_In. apply Nat.ltb_lt in bound. exact bound.
Qed.

Lemma chars_string_of_list (l : list ascii) : chars (string_of_list_ascii l) = l.
Proof. apply list_ascii_of_string_of_list_ascii. Qed.

Lemma generateId_fraction (d : Digit36) (ds : list Digit36) :
  generateId (DrawFraction d ds) =
  substring 0 13 (string_of_list_ascii (map digit_char (d :: ds))).
Proof. reflexivity. Qed.

(** C10: generateId returns at most 13 characters, all base-36 digits; the
    draw zero gives the empty string; and whatever an earlier call returned,
    a later call has a draw that returns the same string. *)
Theorem generateId_shape :
  (forall x, String.length (generateId x) <= 13 /\
             forall c, In c (chars (generateId x)) -> In c alphabet36) /\
  generateId DrawZero = "" /\
  (forall earlier, exists later, generateId later = generateId earlier).
Proof.
  split; [|split].
  - intros [|d ds].
    + split; [simpl; lia | intros c []].
    + rewrite generateId_fraction. split.
      * apply substring_0_length.
      * intros c Hc. apply substring_0_chars in Hc.
        rewrite chars_string_of_list in Hc.
        apply in_map_iff in Hc. destruct Hc as [d' [<- _]].
        apply digit_char_in_alphabet.
  - reflexivity.
  - intros earlier. exists earlier. reflexivity.
Qed.

Lemma generateId_shape_witness :
  String.length (generateId (DrawFraction (D36 18 eq_refl) [D36 35 eq_refl])) <= 13 /\
  In "z"%char alphabet36.
Proof.
  split.
  - exact (proj1 (proj1 generateId_shape (DrawFraction (D36 18 eq_refl) [D36 35 eq_refl]))).
  - apply (proj2 (proj1 generateId_shape (DrawFraction (D36 18 eq_refl) [D36 35 eq_refl]))).
    right. left. reflexivity.
Defined.

(** ** The monorepo lookup client *)

Lemma settle_normal (client : HttpClient) (o : NetOutcome) (r : HttpResponse) :
  settle client o = Normal r <-> o = NetResponse r /\ validateStatus (status r) = true.
Proof.
  split.
  - destruct o as [[code|]|r']; simpl; try discriminate.
    destruct (validateStatus (status r')) eqn:E; [|discriminate].
    intros H; injection H as ->. split; [reflexivity | exact E].
  - intros [-> E]. simpl. rewrite E. reflexivity.
Qed.

Lemma getUserById_run S (client : HttpClient) (userId : string) (s : S) :
  OrderService.getUserById client userId s =
  mkResult
    (Normal match settle client (transport client ("/users/" ++ userId)) with
            | Normal response => payload_of (body response)
            | Throw _ => JNull
            end)
    s ["/users/" ++ userId].
Proof.
  unfold OrderService.getUserById. run_handler.
  destruct (settle client (transport client ("/users/" ++ userId))) as [response|e];
    cbn [outcome state requests].
  - destruct (body response); reflexivity.
  - reflexivity.
Qed.

#[export] Hint Rewrite getUserById_run : runs.

Lemma or_null_truthy (v : option Json) : or_null v = JNull \/ truthy (or_null v) = true.
Proof.
  destruct v as [j|]; simpl; [|left; reflexivity].
  destruct (truthy j) eqn:E; [right; exact E | left; reflexivity].
Qed.

(** C8: the client always returns, never throws; it returns the payload
    exactly when the exchange succeeded with a truthy [data], and [null] in
    every other case. *)
Theorem getUserById_client_total S (client : HttpClient) (userId : string) (s : S) :
  let o := transport client ("/users/" ++ userId) in
  let r := OrderService.getUserById client userId s in
  (exists v, outcome r = Normal v) /\
  (forall d, carries_payload o d -> outcome r = Normal d) /\
  ((forall d, ~ carries_payload o d) -> outcome r = Normal JNull).
Proof.
  cbv zeta. rewrite getUserById_run. cbn [outcome].
  split; [eexists; reflexivity | split].
  - intros d (r & fields & Ho & Hs & Hb & Hd & Ht).
    rewrite Ho. cbn [settle]. rewrite Hs. unfold payload_of. rewrite Hb.
    rewrite Hd. cbn [or_null]. rewrite Ht. reflexivity.
  - intros Hnone.
    destruct (settle client (transport client ("/users/" ++ userId))) as [response|e] eqn:E;
      [|reflexivity].
    apply settle_normal in E. destruct E as [Ho Hs].
    unfold payload_of. destruct (body response) as [| | | | |fields] eqn:Hb; try reflexivity.
    destruct (assoc "data" fields) as [d|] eqn:Hd; [|reflexivity].
    cbn [or_null]. destruct (truthy d) eqn:Ht; [|reflexivity].
    exfalso. apply (Hnone d). exists response, fields. repeat split; assumption.
Qed.

(** ** The directory's lookup endpoint *)

Lemma endpoint_run (id : string) (us : list User.t) :
  UserService.getUserById id us =
  mkResult
    (Normal match find (fun u => User.id u =? id) us with
            | None => user_not_found
            | Some user => respond_ok (Shared.success (User.to_json user))
            end)
    us [].
Proof.
  unfold UserService.getUserById. run_handler.
  destruct (find (fun u => User.id u =? id) us); reflexivity.
Qed.

Lemma getUsers_run (us : list User.t) :
  UserService.getUsers us =
  mkResult (Normal (respond_ok (Shared.success (JArr (map User.to_json us))))) us [].
Proof. reflexivity. Qed.

#[export] Hint Rewrite endpoint_run getUsers_run : runs.

Lemma find_absent (id : string) (us : list User.t) :
  (forall u, In u us -> User.id u <> id) ->
  find (fun u => User.id u =? id) us = None.
Proof.
  induction us as [|u us IH]; intros H; simpl; [reflexivity|].
  destruct (String.eqb_spec (User.id u) id) as [E|_].
  - exfalso. apply (H u); [left; reflexivity | exact E].
  - apply IH. intros v Hv. apply H. right. exact Hv.
Qed.

(** C4: on the seed set, the lookup endpoint answers an identifier of a seed
    user with the success envelope around exactly that user, and any other
    identifier with 404 [{success: false, error: "User not found"}], a body
    without a [data] field. *)
Theorem lookup_endpoint_on_seed_set (id : string) :
  let r := UserService.getUserById id UserService.users in
  UserService.users = [ User.mk "1" "John Doe" "john@example.com";
                        User.mk "2" "Jane Smith" "jane@example.com" ] /\
  (forall u, In u UserService.users -> User.id u = id ->
     outcome r = Normal (respond_ok (Shared.success (User.to_json u)))) /\
  ((forall u, In u UserService.users -> User.id u <> id) ->
     outcome r = Normal (respond 404 (Shared.failure "User not found")) /\
     get_prop (body (respond 404 (Shared.failure "User not found"))) "data" = Normal None).
Proof.
  cbv zeta. rewrite endpoint_run. cbn [outcome]. split; [reflexivity | split].
  - intros u Hin Hid. subst id.
    destruct Hin as [<-|[<-|[]]]; reflexivity.
  - intros Habsent. rewrite (find_absent id UserService.users Habsent). split; reflexivity.
Qed.

Lemma lookup_endpoint_on_seed_set_witness :
  outcome (UserService.getUserById "2" UserService.users) =
    Normal (respond_ok (Shared.success
              (User.to_json (User.mk "2" "Jane Smith" "jane@example.com")))) /\
  outcome (UserService.getUserById "999" UserService.users) =
    Normal (respond 404 (Shared.failure "User not found")).
Proof.
  split.
  - apply (proj1 (proj2 (lookup_endpoint_on_seed_set "2"))
             (User.mk "2" "Jane Smith" "jane@example.com")).
    + right; left; reflexivity.
    + reflexivity.
  - apply (proj2 (proj2 (lookup_endpoint_on_seed_set "999"))).
    intros u [<-|[<-|[]]]; discriminate.
Defined.

Lemma getUserById_client_total_witness :
  outcome (OrderService.getUserById
             (OrderService.httpClient None (System.directory System.LinkUp UserService.users))
             "1" tt) =
    Normal (User.to_json (User.mk "1" "John Doe" "john@example.com")) /\
  outcome (OrderService.getUserById
             (OrderService.httpClient None
                (System.directory (System.LinkDown TimedOut) UserService.users))
             "1" tt) = Normal JNull.
Proof.
  split.
  - apply (proj1 (proj2 (getUserById_client_total unit
       (OrderService.httpClient None (System.directory System.LinkUp UserService.users))
       "1" tt))).
    eexists; eexists. repeat split; reflexivity.
  - apply (proj2 (proj2 (getUserById_client_total unit
       (OrderService.httpClient None
          (System.directory (System.LinkDown TimedOut) UserService.users))
       "1" tt))).
    intros d (r & fields & Ho & _). discriminate Ho.
Defined.

(** ** createOrder *)

(** The lookup's result as [createOrder] receives it. *)
Lemma createOrder_run (client : HttpClient) (random : RandomDraw) (b : ReqBody.t)
    (os : list Order.t) :
  OrderService.createOrder client random b os =
  let user :=
    match settle client (transport client ("/users/" ++ ReqBody.userId b)) with
    | Normal response => payload_of (body response)
    | Throw _ => JNull
    end in
  if truthy user then
    mkResult (Normal (respond 201 (Shared.success (Order.to_json (order_of random b)))))
             (os ++ [order_of random b])%list ["/users/" ++ ReqBody.userId b]
  else
    mkResult (Normal user_not_found) os ["/users/" ++ ReqBody.userId b].
Proof.
  unfold OrderService.createOrder, OrderService.createOrder_try, try_catch, bind.
  autorewrite with runs. cbn [outcome state requests]. cbv zeta.
  destruct (truthy _); reflexivity.
Qed.

Lemma failure_is_rejected (client : HttpClient) (o : NetOutcome) :
  transport_level_failure o = true -> exists e, settle client o = Throw e.
Proof.
  destruct o as [[code|]|r]; simpl; intros H; try (eexists; reflexivity).
  replace (validateStatus (status r)) with false; [eexists; reflexivity|].
  unfold validateStatus. apply Z.leb_le in H.
  symmetry. apply andb_false_iff. right. apply Z.ltb_ge. lia.
Qed.

(** C1, as the code behaves: when the lookup fails below the application no
    order is appended, and the answer is the very 404 "User not found" given
    for an unknown user, not a dependency failure of its own. *)
Theorem createOrder_unreachable_directory (client : HttpClient) (random : RandomDraw)
    (b : ReqBody.t) (os : list Order.t) :
  transport_level_failure (transport client ("/users/" ++ ReqBody.userId b)) = true ->
  let r := OrderService.createOrder client random b os in
  state r = os /\
  outcome r = Normal (respond 404 (Shared.failure "User not found")).
Proof.
  intros H. cbv zeta. rewrite createOrder_run.
  destruct (failure_is_rejected client _ H) as [e ->]. cbv zeta.
  cbn [truthy]. split; reflexivity.
Qed.

Lemma createOrder_unreachable_directory_witness :
  let client := OrderService.httpClient None (fun _ => NetFailure (ConnectionError "ECONNREFUSED")) in
  let r := OrderService.createOrder client DrawZero (ReqBody.mk "1" "Laptop" (1#1) (999#1)) [] in
  state r = [] /\ outcome r = Normal (respond 404 (Shared.failure "User not found")).
Proof.
  exact (createOrder_unreachable_directory
           (OrderService.httpClient None (fun _ => NetFailure (ConnectionError "ECONNREFUSED")))
           DrawZero (ReqBody.mk "1" "Laptop" (1#1) (999#1)) [] eq_refl).
Defined.

(** ** Routing in the user service *)

Lemma userRouter_readonly (path : string) (rest : list string) (us : list User.t) :
  state (UserService.userRouter path rest us) = us /\
  requests (UserService.userRouter path rest us) = [] /\
  exists r, outcome (UserService.userRouter path rest us) = Normal r.
Proof.
  unfold UserService.userRouter.
  destruct rest as [|seg [|last [|x rest]]].
  - rewrite getUsers_run. repeat split. eexists; reflexivity.
  - destruct (seg =? "").
    + rewrite getUsers_run. repeat split. eexists; reflexivity.
    + rewrite endpoint_run. repeat split. eexists; reflexivity.
  - destruct (negb (seg =? "") && (last =? "")).
    + rewrite endpoint_run. repeat split. eexists; reflexivity.
    + repeat split. eexists; reflexivity.
  - repeat split. eexists; reflexivity.
Qed.

Lemma app_readonly (path : string) (us : list User.t) :
  state (UserService.app path us) = us /\
  requests (UserService.app path us) = [] /\
  exists r, outcome (UserService.app path us) = Normal r.
Proof.
  unfold UserService.app.
  destruct (split_slash path) as [|root [|mount rest]];
    try (repeat split; eexists; reflexivity).
  destruct ((root =? "") && (mount =? "users"));
    [apply userRouter_readonly | repeat split; eexists; reflexivity].
Qed.

Lemma served_readonly (link : System.Link) (log : list string) (us : list User.t) :
  System.served link log us = us.
Proof.
  destruct link as [|f]; [|reflexivity]. simpl.
  induction log as [|path log IH]; simpl; [reflexivity|].
  rewrite (proj1 (app_readonly path us)). exact IH.
Qed.

Lemma identifier_no_slash (s : string) :
  forallb is_id_char (chars s) = true -> split_slash s = [s].
Proof.
  induction s as [|c s IH]; simpl; [reflexivity|].
  intros H. apply andb_prop in H. destruct H as [Hc Hs].
  destruct (Ascii.eqb_spec c "/") as [->|_]; [discriminate Hc|].
  rewrite (IH Hs). reflexivity.
Qed.

(** A GET of [/users/<id>] reaches the lookup endpoint with that [id]. *)
Lemma app_routes_identifier (id : string) (us : list User.t) :
  identifier id = true ->
  UserService.app ("/users/" ++ id) us = UserService.getUserById id us.
Proof.
  unfold identifier. intros H. apply andb_prop in H. destruct H as [Hne Hid].
  unfold UserService.app. cbn [append split_slash Ascii.eqb Bool.eqb].
  rewrite (identifier_no_slash _ Hid). cbn [String.eqb Ascii.eqb Bool.eqb andb].
  unfold UserService.after_mount, UserService.userRouter.
  apply negb_true_iff in Hne. rewrite Hne. reflexivity.
Qed.

(** What a [CreateOrder] call does to the world. *)
Lemma exec_createOrder (link : System.Link) (random : RandomDraw) (b : ReqBody.t)
    (w : System.World) :
  System.exec link (System.CreateOrder random b) w =
  let r := OrderService.createOrder
             (OrderService.httpClient None (System.directory link (System.users w)))
             random b (System.orders w) in
  (System.Reply (outcome r), System.mkWorld (System.users w) (state r)).
Proof.
  unfold System.exec, System.run_order. cbv zeta. rewrite served_readonly. reflexivity.
Qed.

(** C2, as the code behaves on the empty identifier: no user has it, yet the
    GET of [/users/] is answered by the list route, whose array is truthy, so
    the order is created and 201 is sent. *)
Theorem createOrder_empty_userId (random : RandomDraw) (product : string)
    (quantity total : Q) (os : list Order.t) :
  let b := ReqBody.mk "" product quantity total in
  (forall u, In u UserService.users -> User.id u <> "") /\
  System.exec System.LinkUp (System.CreateOrder random b)
              (System.mkWorld UserService.users os) =
    (System.Reply (Normal (respond 201 (Shared.success (Order.to_json (order_of random b))))),
     System.mkWorld UserService.users (os ++ [order_of random b])).
Proof.
  cbv zeta. split.
  - intros u [<-|[<-|[]]]; discriminate.
  - rewrite exec_createOrder. cbv zeta. rewrite createOrder_run. reflexivity.
Qed.

(** For an identifier that no user has, the order is refused with 404 and
    the world is left as it was, whatever the state of the link. *)
Lemma createOrder_unknown_identifier (link : System.Link) (random : RandomDraw)
    (b : ReqBody.t) (w : System.World) :
  identifier (ReqBody.userId b) = true ->
  (forall u, In u (System.users w) -> User.id u <> ReqBody.userId b) ->
  System.exec link (System.CreateOrder random b) w =
    (System.Reply (Normal user_not_found), w).
Proof.
  intros Hid Habsent. rewrite exec_createOrder. cbv zeta. rewrite createOrder_run.
  destruct w as [us os]. cbn [System.users System.orders] in *.
  unfold OrderService.httpClient, Shared.createHttpClient. cbn [transport].
  unfold System.directory. destruct link as [|f].
  - rewrite (app_routes_identifier _ us Hid). rewrite endpoint_run. cbn [outcome].
    rewrite (find_absent _ us Habsent). reflexivity.
  - destruct f; reflexivity.
Qed.

(** C3, amended: for a [userId] of the directory reached over a working
    link, createOrder answers 201 with the order built from the body, whose
    [userId] is the request's and whose [id] is what generateId returned for
    the call's draw, and appends it; no comparison with earlier ids is
    made. *)
Theorem createOrder_known_user (random : RandomDraw) (b : ReqBody.t) (os : list Order.t) :
  In (ReqBody.userId b) (map User.id UserService.users) ->
  let o := order_of random b in
  System.exec System.LinkUp (System.CreateOrder random b)
              (System.mkWorld UserService.users os) =
    (System.Reply (Normal (respond 201 (Shared.success (Order.to_json o)))),
     System.mkWorld UserService.users (os ++ [o])) /\
  Order.userId o = ReqBody.userId b /\
  Order.id o = generateId random.
Proof.
  intros Hin. cbv zeta. split; [|split; reflexivity].
  rewrite exec_createOrder. cbv zeta. rewrite createOrder_run.
  destruct b as [userId product quantity total]. cbn [ReqBody.userId] in *.
  destruct Hin as [<-|[<-|[]]]; reflexivity.
Qed.

Lemma createOrder_known_user_witness :
  let b := ReqBody.mk "1" "Laptop" (1#1) (999#1) in
  let o := Order.mk "i" "1" "Laptop" (1#1) (999#1) in
  System.exec System.LinkUp (System.CreateOrder (DrawFraction (D36 18 eq_refl) []) b)
              System.initial =
    (System.Reply (Normal (respond 201 (Shared.success (Order.to_json o)))),
     System.mkWorld UserService.users [o]).
Proof.
  exact (proj1 (createOrder_known_user (DrawFraction (D36 18 eq_refl) [])
                  (ReqBody.mk "1" "Laptop" (1#1) (999#1)) []
                  (or_introl eq_refl))).
Defined.

(** C3 as stated fails: two orders created in one process, from two calls
    whose draws are the same number, carry the same [id]; and with the link
    down a request for the existing user ["1"] is answered 404, not 201. *)
Lemma known_user_orders_counterexample :
  let half := DrawFraction (D36 18 eq_refl) [] in
  let b := ReqBody.mk "1" "Laptop" (1#1) (999#1) in
  let calls := [ (System.LinkUp, System.CreateOrder half b);
                 (System.LinkUp, System.CreateOrder half b) ] in
  map Order.id (System.orders (snd (System.run calls System.initial))) = ["i"; "i"] /\
  ~ NoDup (map Order.id (System.orders (snd (System.run calls System.initial)))) /\
  System.exec (System.LinkDown TimedOut) (System.CreateOrder half b) System.initial =
    (System.Reply (Normal (respond 404 (Shared.failure "User not found"))), System.initial).
Proof.
  cbv zeta. split; [reflexivity | split; [|reflexivity]].
  intros H. inversion H as [|x l Hnotin _]; subst. apply Hnotin. left. reflexivity.
Qed.

(** ** Stored orders and the data model's constraints *)

Lemma exec_orders (link : System.Link) (op : System.Op) (w : System.World) :
  System.users (snd (System.exec link op w)) = System.users w /\
  match op with
  | System.CreateOrder random b =>
      System.orders (snd (System.exec link op w)) = System.orders w \/
      System.orders (snd (System.exec link op w)) =
        (System.orders w ++ [order_of random b])%list
  | _ => System.orders (snd (System.exec link op w)) = System.orders w
  end.
Proof.
  destruct op as [userId|id| | |random b].
  - unfold System.exec, System.run_order. rewrite served_readonly.
    autorewrite with runs. split; reflexivity.
  - unfold System.exec, System.run_user. autorewrite with runs. split; reflexivity.
  - split; reflexivity.
  - unfold System.exec, System.run_order. rewrite served_readonly. split; reflexivity.
  - rewrite exec_createOrder. cbv zeta. rewrite createOrder_run. cbv zeta.
    destruct (truthy _); cbn [snd System.users System.orders state];
      split; auto.
Qed.

Lemma run_cons (link : System.Link) (op : System.Op) (rest : list (System.Link * System.Op))
    (w : System.World) :
  snd (System.run ((link, op) :: rest) w) =
  snd (System.run rest (snd (System.exec link op w))).
Proof.
  simpl. destruct (System.exec link op w) as [a w1]. simpl.
  destruct (System.run rest w1) as [answers w2]. reflexivity.
Qed.

Lemma run_orders_origin (calls : list (System.Link * System.Op)) (w : System.World)
    (o : Order.t) :
  In o (System.orders (snd (System.run calls w))) ->
  In o (System.orders w) \/
  exists random b, In b (bodies calls) /\ o = order_of random b.
Proof.
  revert w. induction calls as [|[link op] rest IH]; intros w H.
  - left. exact H.
  - rewrite run_cons in H. apply IH in H.
    destruct H as [H|(random & b & Hb & ->)].
    + destruct (exec_orders link op w) as [_ Ho].
      destruct op as [userId|id| | |random b];
        try (rewrite Ho in H; left; exact H).
      destruct Ho as [Ho|Ho]; rewrite Ho in H; [left; exact H|].
      apply in_app_or in H. destruct H as [H|[<-|[]]]; [left; exact H|].
      right. exists random, b. split; [left; reflexivity | reflexivity].
    + right. exists random, b. split; [|reflexivity].
      destruct op; simpl; auto.
Qed.

(** C7, amended: every stored order is the order built from the body of some
    createOrder call, its [quantity] and [total] copied unchecked; so the
    constraints hold in the collection whenever every body of the run met
    them. *)
Theorem stored_orders_mirror_bodies (calls : list (System.Link * System.Op)) :
  let w := snd (System.run calls System.initial) in
  (forall o, In o (System.orders w) ->
     exists random b, In b (bodies calls) /\ o = order_of random b /\
       Order.quantity o = ReqBody.quantity b /\ Order.total o = ReqBody.total b) /\
  (forallb valid_body (bodies calls) = true ->
   forallb valid_order (System.orders w) = true).
Proof.
  cbv zeta.
  assert (Horigin : forall o, In o (System.orders (snd (System.run calls System.initial))) ->
            exists random b, In b (bodies calls) /\ o = order_of random b).
  { intros o H. apply run_orders_origin in H. destruct H as [[]|H]. exact H. }
  split.
  - intros o H. destruct (Horigin o H) as (random & b & Hb & ->).
    exists random, b. repeat split; assumption.
  - intros Hvalid. apply forallb_forall. intros o H.
    destruct (Horigin o H) as (random & b & Hb & ->).
    rewrite forallb_forall in Hvalid. exact (Hvalid b Hb).
Qed.

Lemma stored_orders_mirror_bodies_witness :
  forallb valid_order
    (System.orders (snd (System.run
       [ (System.LinkUp, System.CreateOrder DrawZero (ReqBody.mk "1" "Laptop" (1#1) (999#1)));
         (System.LinkUp, System.GetOrders);
         (System.LinkUp, System.CreateOrder DrawZero (ReqBody.mk "2" "Mouse" (2#1) (0#1))) ]
       System.initial))) = true.
Proof.
  apply (proj2 (stored_orders_mirror_bodies
       [ (System.LinkUp, System.CreateOrder DrawZero (ReqBody.mk "1" "Laptop" (1#1) (999#1)));
         (System.LinkUp, System.GetOrders);
         (System.LinkUp, System.CreateOrder DrawZero (ReqBody.mk "2" "Mouse" (2#1) (0#1))) ])).
  reflexivity.
Defined.

(** C7 as stated fails: a body with a fractional, negative [quantity] and a
    negative [total] is accepted and stored as it came. *)
Lemma stored_order_can_break_constraints :
  let b := ReqBody.mk "1" "Laptop" (-3#2) (-1#1) in
  let w := snd (System.run [(System.LinkUp, System.CreateOrder DrawZero b)] System.initial) in
  System.reachable w /\
  System.orders w = [Order.mk "" "1" "Laptop" (-3#2) (-1#1)] /\
  valid_quantity (-3#2) = false /\ valid_total (-1#1) = false /\
  forallb valid_order (System.orders w) = false.
Proof.
  cbv zeta. split; [|repeat split; reflexivity].
  eexists. reflexivity.
Qed.

(** ** Failures and the handler boundary *)

Lemma try_catch_createOrder_catch (m : M (list Order.t) HttpResponse) (os : list Order.t) :
  exists resp,
    outcome (try_catch m OrderService.createOrder_catch os) = Normal resp /\
    (forall e, outcome (m os) = Throw e ->
       resp = respond 500 (Shared.failure "Failed to create order")).
Proof.
  unfold try_catch. destruct (outcome (m os)) as [a|e] eqn:E.
  - exists a. split; [exact E | intros e' He'; discriminate He'].
  - eexists. split; [reflexivity | intros; reflexivity].
Qed.

(** C5, amended to the monorepo variant: createOrder always answers and
    never lets a failure leave the handler; a rejected lookup is answered
    with the error envelope (status 404), any throw inside its [try] block
    would be answered with the 500 envelope, the read handlers cannot fail,
    and the error middleware wraps what it is given in the 500 envelope with
    the formatted message. *)
Theorem monorepo_failures_are_enveloped :
  (forall client random b os,
     exists resp,
       outcome (OrderService.createOrder client random b os) = Normal resp /\
       ((exists e, settle client (transport client ("/users/" ++ ReqBody.userId b)) = Throw e) ->
        status resp = 404%Z /\ error_envelope resp /\
        state (OrderService.createOrder client random b os) = os)) /\
  (forall (m : M (list Order.t) HttpResponse) os,
     exists resp,
       outcome (try_catch m OrderService.createOrder_catch os) = Normal resp /\
       (forall e, outcome (m os) = Throw e -> status resp = 500%Z /\ error_envelope resp)) /\
  (forall os, exists resp, outcome (OrderService.getOrders os) = Normal resp) /\
  (forall path us, exists resp, outcome (UserService.app path us) = Normal resp) /\
  (forall err,
     status (OrderService.errorHandler err) = 500%Z /\
     body (OrderService.errorHandler err) = Shared.failure (Shared.formatError err)).
Proof.
  split; [|split; [|split; [|split]]].
  - intros client random b os. rewrite createOrder_run. cbv zeta.
    destruct (settle client (transport client ("/users/" ++ ReqBody.userId b)))
      as [response|e0] eqn:E.
    + destruct (truthy (payload_of (body response))).
      * eexists. split; [reflexivity|]. intros [e He]. discriminate He.
      * eexists. split; [reflexivity|]. intros [e He]. discriminate He.
    + cbn [truthy]. eexists. split; [reflexivity|]. intros _.
      split; [reflexivity|]. split; [|reflexivity].
      exists "User not found". reflexivity.
  - intros m os. destruct (try_catch_createOrder_catch m os) as (resp & Hr & Hthrow).
    exists resp. split; [exact Hr|]. intros e He. rewrite (Hthrow e He).
    split; [reflexivity | eexists; reflexivity].
  - intros os. eexists. reflexivity.
  - intros path us. exact (proj2 (proj2 (app_readonly path us))).
  - intros err. split; reflexivity.
Qed.

Lemma monorepo_failures_are_enveloped_witness :
  let client := OrderService.httpClient None (fun _ => NetFailure TimedOut) in
  let b := ReqBody.mk "1" "Laptop" (1#1) (999#1) in
  exists resp,
    outcome (OrderService.createOrder client DrawZero b []) = Normal resp /\
    status resp = 404%Z /\ error_envelope resp.
Proof.
  cbv zeta.
  destruct (proj1 monorepo_failures_are_enveloped
              (OrderService.httpClient None (fun _ => NetFailure TimedOut))
              DrawZero (ReqBody.mk "1" "Laptop" (1#1) (999#1)) [])
    as (resp & Hr & Hfail).
  exists resp. split; [exact Hr|].
  destruct Hfail as (Hs & He & _); [eexists; reflexivity|].
  split; assumption.
Defined.

(** C5 as stated fails in the plain variant: getOrder has no [try], so a
    refused connection leaves the handler as a rejection and no envelope is
    sent. *)
Lemma plain_getOrder_rejection_escapes :
  let client := mkClient None 0 (fun _ => NetFailure (ConnectionError "ECONNREFUSED")) in
  let r := PlainOrderService.getOrder client (PlainOrderService.USER_SERVICE_URL None) "42" tt in
  outcome r = Throw (ErrorObject "ECONNREFUSED") /\
  forall resp, outcome r <> Normal resp.
Proof.
  cbv zeta. split; [reflexivity | intros resp H; discriminate H].
Qed.

(** ** The plain variant's GET /api/orders/:orderId *)

Lemma plain_getOrder_run S (client : HttpClient) (base orderId : string) (s : S) :
  PlainOrderService.getOrder client base orderId s =
  mkResult
    match settle client (transport client (base ++ "/api/users/1")) with
    | Normal response =>
        Normal (respond_ok (JObj [("orderId", JStr orderId); ("product", JStr "Laptop");
                                  ("user", body response)]))
    | Throw e => Throw e
    end
    s [base ++ "/api/users/1"].
Proof.
  unfold PlainOrderService.getOrder, PlainOrderService.getUserById.
  change ("/api/users/" ++ "1") with "/api/users/1". run_handler.
  destruct (settle client (transport client (base ++ "/api/users/1"))); reflexivity.
Qed.

(** C9, amended: whatever the [orderId] and whatever state the process
    holds, getOrder issues one request, for the user ["1"]; when that lookup
    resolves it answers 200 with the path's [orderId], the product
    ["Laptop"] and the lookup's data, and when it rejects, the rejection
    leaves the handler and nothing is answered.  No stored order enters the
    result. *)
Theorem plain_getOrder_ignores_ledger S (client : HttpClient) (base orderId : string) (s : S) :
  let r := PlainOrderService.getOrder client base orderId s in
  let lookup := settle client (transport client (base ++ "/api/users/1")) in
  requests r = [base ++ "/api/users/1"] /\
  state r = s /\
  (forall response, lookup = Normal response ->
     outcome r = Normal (respond_ok (JObj [("orderId", JStr orderId);
                                           ("product", JStr "Laptop");
                                           ("user", body response)]))) /\
  (forall e, lookup = Throw e -> outcome r = Throw e) /\
  (forall S' (s' : S'), outcome (PlainOrderService.getOrder client base orderId s') = outcome r).
Proof.
  cbv zeta. rewrite plain_getOrder_run. cbn [outcome state requests].
  repeat split.
  - intros response ->. reflexivity.
  - intros e ->. reflexivity.
  - intros S' s'. rewrite plain_getOrder_run. reflexivity.
Qed.

Lemma plain_getOrder_ignores_ledger_witness :
  let client := mkClient None 0
      (fun _ => NetResponse (respond_ok (JObj [("id", JStr "1"); ("name", JStr "Ann");
                                               ("role", JStr "admin")]))) in
  outcome (PlainOrderService.getOrder client "http://localhost:4001" "42" tt) =
    Normal (respond_ok (JObj [("orderId", JStr "42"); ("product", JStr "Laptop");
                              ("user", JObj [("id", JStr "1"); ("name", JStr "Ann");
                                             ("role", JStr "admin")])])).
Proof.
  exact (proj1 (proj2 (proj2 (plain_getOrder_ignores_ledger unit
           (mkClient None 0
              (fun _ => NetResponse (respond_ok (JObj [("id", JStr "1"); ("name", JStr "Ann");
                                                       ("role", JStr "admin")]))))
           "http://localhost:4001" "42" tt)))
         _ eq_refl).
Defined.

(** C9 as stated fails on "always responds": with the directory answering
    503, the lookup rejects and the handler sends no response at all. *)
Lemma plain_getOrder_may_not_respond :
  let client := mkClient None 0 (fun _ => NetResponse (respond 503 (JStr "Service Unavailable"))) in
  let r := PlainOrderService.getOrder client "http://localhost:4001" "7" tt in
  requests r = ["http://localhost:4001/api/users/1"] /\
  outcome r = Throw (ErrorObject "Request failed with status code 503") /\
  forall resp, outcome r <> Normal resp.
Proof.
  cbv zeta. repeat split. intros resp H. discriminate H.
Qed.

(** ** Queries *)

Lemma exec_query_state (link : System.Link) (op : System.Op) (w : System.World) :
  is_query op = true -> snd (System.exec link op w) = w.
Proof.
  intros Hq. destruct w as [us os].
  destruct op as [userId|id| | |random b]; try discriminate Hq.
  - unfold System.exec, System.run_order. rewrite served_readonly.
    autorewrite with runs. reflexivity.
  - unfold System.exec, System.run_user. autorewrite with runs. reflexivity.
  - reflexivity.
  - unfold System.exec, System.run_order. rewrite served_readonly. reflexivity.
Qed.

Lemma run_step (link : System.Link) (op : System.Op) (rest : list (System.Link * System.Op))
    (w : System.World) :
  System.run ((link, op) :: rest) w =
  (fst (System.exec link op w) :: fst (System.run rest (snd (System.exec link op w))),
   snd (System.run rest (snd (System.exec link op w)))).
Proof.
  simpl. destruct (System.exec link op w) as [a w1]. simpl.
  destruct (System.run rest w1) as [answers w2]. reflexivity.
Qed.

Lemma queries_preserve_world (calls : list (System.Link * System.Op)) (w : System.World) :
  forallb (fun c => is_query (snd c)) calls = true ->
  snd (System.run calls w) = w.
Proof.
  induction calls as [|[link op] rest IH]; intros H; [reflexivity|].
  cbn [forallb snd] in H. apply andb_prop in H. destruct H as [Hq Hrest].
  rewrite run_step. cbn [snd]. rewrite (exec_query_state link op w Hq).
  exact (IH Hrest).
Qed.

(** C6: the lookup, GET /users/:id, GET /users and GET /orders are pure
    queries: any sequence of them, over any states of the link, leaves the
    users and the orders of both services as they were; and run any number
    of times in a row, one query gives every time the answer of the first
    run. *)
Theorem queries_are_pure :
  (forall calls w,
     forallb (fun c => is_query (snd c)) calls = true ->
     snd (System.run calls w) = w) /\
  (forall link op n w,
     is_query op = true ->
     fst (System.run (repeat_op link op n) w) = repeat (fst (System.exec link op w)) n).
Proof.
  split; [exact queries_preserve_world|].
  intros link op n w Hq. unfold repeat_op.
  induction n as [|n IH]; [reflexivity|].
  cbn [repeat]. rewrite run_step. rewrite (exec_query_state link op w Hq).
  cbn [fst]. rewrite IH. reflexivity.
Qed.

Lemma queries_are_pure_witness :
  let w := System.mkWorld UserService.users [Order.mk "i" "1" "Laptop" (1#1) (999#1)] in
  snd (System.run [ (System.LinkUp, System.Lookup "1");
                    (System.LinkDown TimedOut, System.Lookup "1");
                    (System.LinkUp, System.GetUser "2");
                    (System.LinkUp, System.GetOrders) ] w) = w /\
  fst (System.run (repeat_op System.LinkUp (System.Lookup "1") 3) w) =
    repeat (System.Value (Normal (User.to_json (User.mk "1" "John Doe" "john@example.com")))) 3.
Proof.
  split.
  - exact (proj1 queries_are_pure
             [ (System.LinkUp, System.Lookup "1");
               (System.LinkDown TimedOut, System.Lookup "1");
               (System.LinkUp, System.GetUser "2");
               (System.LinkUp, System.GetOrders) ]
             (System.mkWorld UserService.users [Order.mk "i" "1" "Laptop" (1#1) (999#1)])
             eq_refl).
  - exact (proj2 queries_are_pure System.LinkUp (System.Lookup "1") 3
             (System.mkWorld UserService.users [Order.mk "i" "1" "Laptop" (1#1) (999#1)])
             eq_refl).
Defined.

(** * Further properties of the handlers *)

(** ** createOrder: its two outcomes *)

Lemma payload_carried (client : HttpClient) (o : NetOutcome) (d : Json) :
  carries_payload o d ->
  match settle client o with
  | Normal response => payload_of (body response)
  | Throw _ => JNull
  end = d /\ truthy d = true.
Proof.
  intros (r & fields & -> & Hs & Hb & Hd & Ht). cbn [settle]. rewrite Hs.
  unfold payload_of. rewrite Hb, Hd. cbn [or_null]. rewrite Ht. split; reflexivity.
Qed.

Lemma payload_truthy_carried (client : HttpClient) (o : NetOutcome) :
  truthy match settle client o with
         | Normal response => payload_of (body response)
         | Throw _ => JNull
         end = true ->
  exists d, carries_payload o d.
Proof.
  destruct (settle client o) as [response|e] eqn:E; [|discriminate].
  apply settle_normal in E. destruct E as [-> Hs].
  unfold payload_of. destruct (body response) as [| | | | |fields] eqn:Hb; try discriminate.
  destruct (assoc "data" fields) as [d|] eqn:Hd; [|discriminate].
  cbn [or_null]. destruct (truthy d) eqn:Ht; [|discriminate].
  intros _. exists d, response, fields. repeat split; assumption.
Qed.

(** X1: createOrder issues exactly one request, the GET of
    [/users/<userId>], and ends in one of two ways: 201 around the order
    built from the body, that order appended at the end of the collection;
    or 404 "User not found" with the collection untouched.  It never throws
    and never answers 500. *)
Theorem createOrder_two_outcomes (client : HttpClient) (random : RandomDraw)
    (b : ReqBody.t) (os : list Order.t) :
  let r := OrderService.createOrder client random b os in
  requests r = ["/users/" ++ ReqBody.userId b] /\
  ((outcome r = Normal (respond 201 (Shared.success (Order.to_json (order_of random b)))) /\
    state r = (os ++ [order_of random b])%list) \/
   (outcome r = Normal (respond 404 (Shared.failure "User not found")) /\
    state r = os)).
Proof.
  cbv zeta. rewrite createOrder_run. cbv zeta.
  destruct (truthy _); cbn [outcome state requests].
  - split; [reflexivity | left; split; reflexivity].
  - split; [reflexivity | right; split; reflexivity].
Qed.

(** X2: createOrder accepts the order exactly when the lookup exchange
    succeeded with a truthy value under [data]; what that value is plays no
    part: the stored order is built from the body and the draw alone. *)
Theorem createOrder_accepts_on_payload (client : HttpClient) (random : RandomDraw)
    (b : ReqBody.t) (os : list Order.t) :
  let o := transport client ("/users/" ++ ReqBody.userId b) in
  let r := OrderService.createOrder client random b os in
  ((exists d, carries_payload o d) ->
     outcome r = Normal (respond 201 (Shared.success (Order.to_json (order_of random b)))) /\
     state r = (os ++ [order_of random b])%list) /\
  ((forall d, ~ carries_payload o d) ->
     outcome r = Normal (respond 404 (Shared.failure "User not found")) /\
     state r = os).
Proof.
  cbv zeta. rewrite createOrder_run. cbv zeta. split.
  - intros [d Hd]. destruct (payload_carried client _ d Hd) as [-> Ht].
    rewrite Ht. split; reflexivity.
  - intros Hnone.
    destruct (truthy _) eqn:Ht; [|split; reflexivity].
    exfalso. destruct (payload_truthy_carried client _ Ht) as [d Hd].
    exact (Hnone d Hd).
Qed.

Lemma createOrder_accepts_on_payload_witness :
  let client := OrderService.httpClient None
      (fun _ => NetResponse (respond_ok (JObj [("data", JBool true)]))) in
  let b := ReqBody.mk "nobody" "Laptop" (1#1) (999#1) in
  state (OrderService.createOrder client DrawZero b []) = [order_of DrawZero b].
Proof.
  apply (proj1 (createOrder_accepts_on_payload
                  (OrderService.httpClient None
                     (fun _ => NetResponse (respond_ok (JObj [("data", JBool true)]))))
                  DrawZero (ReqBody.mk "nobody" "Laptop" (1#1) (999#1)) [])).
  exists (JBool true). eexists; eexists. repeat split; reflexivity.
Defined.

(** ** Runs of the deployed services *)

Lemma exec_createOrder_cases (link : System.Link) (random : RandomDraw) (b : ReqBody.t)
    (w : System.World) :
  System.exec link (System.CreateOrder random b) w =
    (System.Reply (Normal (respond 201 (Shared.success (Order.to_json (order_of random b))))),
     System.mkWorld (System.users w) (System.orders w ++ [order_of random b])) \/
  System.exec link (System.CreateOrder random b) w =
    (System.Reply (Normal user_not_found), w).
Proof.
  rewrite exec_createOrder. cbv zeta. rewrite createOrder_run. cbv zeta.
  destruct (truthy _); cbn [outcome state]; [left; reflexivity|].
  right. destruct w; reflexivity.
Qed.

Lemma exec_query_not_created (link : System.Link) (op : System.Op) (w : System.World) :
  is_query op = true -> is_created (fst (System.exec link op w)) = false.
Proof.
  intros Hq. destruct op as [userId|id| | |random b]; try discriminate Hq.
  - unfold System.exec, System.run_order. reflexivity.
  - unfold System.exec, System.run_user. autorewrite with runs. cbn [fst outcome is_created].
    destruct (find _ _); reflexivity.
  - reflexivity.
  - reflexivity.
Qed.

(** X3: a created order shows up in the listing: right after a
    createOrder answered 201, GET /orders answers 200 with the orders that
    were there before, in their order, followed by the new one. *)
Theorem created_order_is_listed (link link' : System.Link) (random : RandomDraw)
    (b : ReqBody.t) (w : System.World) :
  is_created (fst (System.exec link (System.CreateOrder random b) w)) = true ->
  fst (System.exec link' System.GetOrders
         (snd (System.exec link (System.CreateOrder random b) w))) =
  System.Reply (Normal (respond_ok (Shared.success
    (JArr (map Order.to_json (System.orders w) ++ [Order.to_json (order_of random b)]))))).
Proof.
  intros Hc.
  destruct (exec_createOrder_cases link random b w) as [E|E]; rewrite E in Hc |- *.
  - unfold System.exec, System.run_order, OrderService.getOrders. run_handler.
    cbn [fst snd System.orders]. rewrite map_app. reflexivity.
  - discriminate Hc.
Qed.

Lemma created_order_is_listed_witness :
  let b := ReqBody.mk "2" "Mouse" (2#1) (40#1) in
  let w := System.mkWorld UserService.users [Order.mk "i" "1" "Laptop" (1#1) (999#1)] in
  fst (System.exec System.LinkUp System.GetOrders
         (snd (System.exec System.LinkUp (System.CreateOrder DrawZero b) w))) =
  System.Reply (Normal (respond_ok (Shared.success
    (JArr [Order.to_json (Order.mk "i" "1" "Laptop" (1#1) (999#1));
           Order.to_json (Order.mk "" "2" "Mouse" (2#1) (40#1))])))).
Proof.
  exact (created_order_is_listed System.LinkUp System.LinkUp DrawZero
           (ReqBody.mk "2" "Mouse" (2#1) (40#1))
           (System.mkWorld UserService.users [Order.mk "i" "1" "Laptop" (1#1) (999#1)])
           eq_refl).
Defined.

Lemma exec_length (link : System.Link) (op : System.Op) (w : System.World) :
  length (System.orders (snd (System.exec link op w))) =
  length (System.orders w) + (if is_created (fst (System.exec link op w)) then 1 else 0).
Proof.
  destruct (is_query op) eqn:Hq.
  - rewrite (exec_query_state link op w Hq), (exec_query_not_created link op w Hq). lia.
  - destruct op as [userId|id| | |random b]; try discriminate Hq.
    destruct (exec_createOrder_cases link random b w) as [E|E]; rewrite E;
      cbn [fst snd System.orders is_created status respond user_not_found Z.eqb Pos.eqb].
    + rewrite length_app. reflexivity.
    + lia.
Qed.

(** Over any run, the collection grows by exactly one order for each 201
    answered. *)
Lemma orders_count_created (calls : list (System.Link * System.Op)) (w : System.World) :
  length (System.orders (snd (System.run calls w))) =
  length (System.orders w) + count_created (fst (System.run calls w)).
Proof.
  revert w. induction calls as [|[link op] rest IH]; intros w.
  - simpl. unfold count_created. simpl. lia.
  - rewrite run_step. cbn [fst snd]. rewrite IH, exec_length.
    unfold count_created. cbn [filter].
    destruct (is_created (fst (System.exec link op w))); cbn [length]; lia.
Qed.

(** X5: nothing is ever removed or rewritten: over any run the users stay
    what they were, and the orders present at the start are still there, in
    place, as the first orders of the final collection. *)
Theorem run_is_append_only (calls : list (System.Link * System.Op)) (w : System.World) :
  System.users (snd (System.run calls w)) = System.users w /\
  exists added, System.orders (snd (System.run calls w)) = (System.orders w ++ added)%list.
Proof.
  revert w. induction calls as [|[link op] rest IH]; intros w.
  - split; [reflexivity | exists []; symmetry; apply app_nil_r].
  - rewrite run_cons. destruct (IH (snd (System.exec link op w))) as [Hu [added Ho]].
    destruct (exec_orders link op w) as [Hu1 Ho1]. split; [congruence|].
    rewrite Ho. destruct op as [userId|id| | |random b];
      try (rewrite Ho1; exists added; reflexivity).
    destruct Ho1 as [-> | ->]; [exists added; reflexivity|].
    exists (order_of random b :: added). rewrite <- app_assoc. reflexivity.
Qed.

(** X6: with the link down at every call, no order is ever created: the
    world after the run is the world before it, whatever was requested. *)
Theorem no_order_while_link_down (calls : list (System.Link * System.Op)) (w : System.World) :
  all_down calls = true -> snd (System.run calls w) = w.
Proof.
  revert w. induction calls as [|[link op] rest IH]; intros w H; [reflexivity|].
  unfold all_down in H. cbn [forallb fst] in H. apply andb_prop in H.
  destruct H as [Hlink Hrest]. rewrite run_cons.
  assert (E : snd (System.exec link op w) = w).
  { destruct (is_query op) eqn:Hq; [exact (exec_query_state link op w Hq)|].
    destruct op as [userId|id| | |random b]; try discriminate Hq.
    destruct link as [|f]; [discriminate Hlink|].
    rewrite exec_createOrder. cbv zeta. rewrite createOrder_run.
    destruct w as [us os]. destruct f; reflexivity. }
  rewrite E. exact (IH w Hrest).
Qed.

Lemma no_order_while_link_down_witness :
  snd (System.run
         [ (System.LinkDown TimedOut,
            System.CreateOrder DrawZero (ReqBody.mk "1" "Laptop" (1#1) (999#1)));
           (System.LinkDown (ConnectionError "ECONNREFUSED"),
            System.CreateOrder DrawZero (ReqBody.mk "" "Mouse" (2#1) (40#1))) ]
         System.initial) = System.initial.
Proof.
  exact (no_order_while_link_down
           [ (System.LinkDown TimedOut,
              System.CreateOrder DrawZero (ReqBody.mk "1" "Laptop" (1#1) (999#1)));
             (System.LinkDown (ConnectionError "ECONNREFUSED"),
              System.CreateOrder DrawZero (ReqBody.mk "" "Mouse" (2#1) (40#1))) ]
           System.initial eq_refl).
Defined.

(** ** What the stored orders refer to *)

Lemma absent_from_ids (id : string) (us : list User.t) :
  ~ In id (map User.id us) -> forall u, In u us -> User.id u <> id.
Proof.
  intros Hnot u Hu E. apply Hnot. rewrite <- E. apply in_map. exact Hu.
Qed.

Lemma run_orders_integrity (calls : list (System.Link * System.Op)) (w : System.World)
    (o : Order.t) :
  In o (System.orders (snd (System.run calls w))) ->
  In o (System.orders w) \/
  (identifier (Order.userId o) = true -> In (Order.userId o) (map User.id (System.users w))).
Proof.
  revert w. induction calls as [|[link op] rest IH]; intros w H; [left; exact H|].
  rewrite run_cons in H. apply IH in H.
  destruct (exec_orders link op w) as [Hu Ho]. rewrite Hu in H.
  destruct H as [H|H]; [|right; exact H].
  destruct op as [userId|id| | |random b]; try (rewrite Ho in H; left; exact H).
  destruct (in_dec string_dec (ReqBody.userId b) (map User.id (System.users w))) as [Hin|Hout].
  - destruct Ho as [Ho|Ho]; rewrite Ho in H; [left; exact H|].
    apply in_app_or in H. destruct H as [H|[<-|[]]]; [left; exact H|].
    right. intros _. exact Hin.
  - destruct (identifier (ReqBody.userId b)) eqn:Hid.
    + rewrite (createOrder_unknown_identifier link random b w Hid
                 (absent_from_ids _ _ Hout)) in H.
      left. exact H.
    + destruct Ho as [Ho|Ho]; rewrite Ho in H; [left; exact H|].
      apply in_app_or in H. destruct H as [H|[<-|[]]]; [left; exact H|].
      right. cbn [order_of Order.userId]. rewrite Hid. discriminate.
Qed.

(** X7: referential integrity, for well-formed identifiers: in every state
    reached from the start, a stored order whose [userId] is a non-empty run
    of letters, digits, [-] and [_] names a user of the directory. *)
Theorem stored_orders_name_users (w : System.World) (o : Order.t) :
  System.reachable w ->
  In o (System.orders w) ->
  identifier (Order.userId o) = true ->
  In (Order.userId o) (map User.id UserService.users).
Proof.
  intros [calls <-] Hin Hid.
  destruct (run_orders_integrity calls System.initial o Hin) as [[]|H].
  exact (H Hid).
Qed.

Lemma stored_orders_name_users_witness :
  In "2" (map User.id UserService.users).
Proof.
  apply (stored_orders_name_users
           (snd (System.run
              [(System.LinkUp, System.CreateOrder DrawZero (ReqBody.mk "2" "Mouse" (2#1) (40#1)))]
              System.initial))
           (Order.mk "" "2" "Mouse" (2#1) (40#1))).
  - eexists. reflexivity.
  - left. reflexivity.
  - reflexivity.
Defined.

(** ** More on generateId *)

Lemma substring_0_firstn (n : nat) (l : list ascii) :
  substring 0 n (string_of_list_ascii l) = string_of_list_ascii (firstn n l).
Proof.
  revert l; induction n as [|n IH]; intros [|c l]; simpl; try reflexivity.
  rewrite IH. reflexivity.
Qed.

Lemma string_of_list_ascii_inj (l l' : list ascii) :
  string_of_list_ascii l = string_of_list_ascii l' -> l = l'.
Proof.
  intros H. rewrite <- (list_ascii_of_string_of_list_ascii l),
    <- (list_ascii_of_string_of_list_ascii l'), H. reflexivity.
Qed.

Lemma string_of_list_ascii_length (l : list ascii) :
  String.length (string_of_list_ascii l) = length l.
Proof. induction l as [|c l IH]; simpl; [reflexivity | rewrite IH; reflexivity]. Qed.

Lemma generateId_digits (x : RandomDraw) :
  generateId x = string_of_list_ascii (map digit_char (firstn 13 (digits_of x))).
Proof.
  destruct x as [|d ds]; [reflexivity|].
  rewrite generateId_fraction, substring_0_firstn, firstn_map. reflexivity.
Qed.

Lemma alphabet36_NoDup : NoDup alphabet36.
Proof.
  unfold alphabet36. cbn [list_ascii_of_string].
  repeat (constructor; [cbn [In]; intuition discriminate|]). constructor.
Qed.

Lemma digit_char_inj (d d' : Digit36) : digit_char d = digit_char d' -> d = d'.
Proof.
  destruct d as [n p], d' as [n' p']. unfold digit_char. cbn [digit_value]. intros H.
  assert (E : n = n').
  { apply (proj1 (NoDup_nth alphabet36 "0"%char) alphabet36_NoDup);
      try (apply Nat.ltb_lt; assumption). exact H. }
  subst n'. f_equal. apply (Eqdep_dec.UIP_dec Bool.bool_dec).
Qed.

Lemma map_digit_char_inj (l l' : list Digit36) :
  map digit_char l = map digit_char l' -> l = l'.
Proof.
  revert l'; induction l as [|d l IH]; intros [|d' l'] H; try discriminate; [reflexivity|].
  cbn [map] in H. injection H as Hd Hl.
  rewrite (digit_char_inj _ _ Hd), (IH _ Hl). reflexivity.
Qed.

(** X8: two draws give the same id exactly when their first 13 base-36
    digits agree: draws that differ within 13 digits never collide, draws
    that differ only beyond them always do. *)
Theorem generateId_collides_iff (x y : RandomDraw) :
  generateId x = generateId y <->
  firstn 13 (digits_of x) = firstn 13 (digits_of y).
Proof.
  rewrite !generateId_digits. split.
  - intros H. apply map_digit_char_inj, string_of_list_ascii_inj. exact H.
  - intros ->. reflexivity.
Qed.

(** X9: the id has as many characters as the draw has digits, up to 13; it
    is empty for the draw zero and for no other. *)
Theorem generateId_length (x : RandomDraw) :
  String.length (generateId x) = Nat.min 13 (length (digits_of x)) /\
  (generateId x = "" <-> x = DrawZero).
Proof.
  split.
  - rewrite generateId_digits, string_of_list_ascii_length, length_map, length_firstn.
    reflexivity.
  - split.
    + destruct x as [|d ds]; [reflexivity|].
      rewrite generateId_digits. cbn [digits_of firstn map string_of_list_ascii].
      discriminate.
    + intros ->. reflexivity.
Qed.

(** X10: every order stored in a state reached from the start has an [id]
    of at most 13 characters, all of them base-36 digits. *)
Theorem stored_ids_shape (w : System.World) (o : Order.t) :
  System.reachable w ->
  In o (System.orders w) ->
  String.length (Order.id o) <= 13 /\
  forall c, In c (chars (Order.id o)) -> In c alphabet36.
Proof.
  intros [calls <-] Hin.
  destruct (run_orders_origin calls System.initial o Hin) as [[]|(random & b & _ & ->)].
  cbn [order_of Order.id]. rewrite generateId_digits. split.
  - rewrite string_of_list_ascii_length, length_map, length_firstn. apply Nat.le_min_l.
  - intros c Hc. rewrite chars_string_of_list in Hc.
    apply in_map_iff in Hc. destruct Hc as [d [<- _]]. apply digit_char_in_alphabet.
Qed.

Lemma stored_ids_shape_witness :
  String.length "i" <= 13 /\ forall c, In c (chars "i") -> In c alphabet36.
Proof.
  apply (stored_ids_shape
           (snd (System.run
              [(System.LinkUp,
                System.CreateOrder (DrawFraction (D36 18 eq_refl) [])
                                   (ReqBody.mk "1" "Laptop" (1#1) (999#1)))]
              System.initial))
           (Order.mk "i" "1" "Laptop" (1#1) (999#1))).
  - eexists. reflexivity.
  - left. reflexivity.
Defined.

(** ** The directory's endpoint on any set of users *)

Lemma find_first (id : string) (us : list User.t) :
  In id (map User.id us) ->
  exists before u after,
    us = (before ++ u :: after)%list /\ User.id u = id /\
    ~ In id (map User.id before) /\
    find (fun v => User.id v =? id) us = Some u.
Proof.
  induction us as [|v us IH]; intros H; [destruct H|].
  cbn [find]. destruct (String.eqb_spec (User.id v) id) as [E|E].
  - exists [], v, us. repeat split; [exact E | intros []].
  - destruct H as [H|H]; [contradiction|].
    destruct (IH H) as (before & u & after & -> & Hid & Hnot & Hfind).
    exists (v :: before), u, after. repeat split; try assumption.
    intros [Hv|Hb]; [exact (E Hv) | exact (Hnot Hb)].
Qed.

(** X11: on any array of users, the lookup endpoint answers 200 exactly for
    the identifiers some user has, with the first user of the array that
    has it (a later user with the same id is never returned), and 404 "User
    not found" for the others; the array is left as it was. *)
Theorem endpoint_first_match (id : string) (us : list User.t) :
  let r := UserService.getUserById id us in
  state r = us /\
  (In id (map User.id us) ->
     exists before u after,
       us = (before ++ u :: after)%list /\ User.id u = id /\
       ~ In id (map User.id before) /\
       outcome r = Normal (respond_ok (Shared.success (User.to_json u)))) /\
  (~ In id (map User.id us) ->
     outcome r = Normal (respond 404 (Shared.failure "User not found"))).
Proof.
  cbv zeta. rewrite endpoint_run. cbn [outcome state]. split; [reflexivity | split].
  - intros H. destruct (find_first id us H) as (before & u & after & Hus & Hid & Hnot & ->).
    exists before, u, after. repeat split; assumption.
  - intros H. rewrite (find_absent id us (absent_from_ids id us H)). reflexivity.
Qed.

Lemma endpoint_first_match_witness :
  (exists before u after,
     [User.mk "7" "Ann" "ann@example.com"; User.mk "7" "Bob" "bob@example.com"] =
       (before ++ u :: after)%list /\ User.id u = "7" /\
     ~ In "7" (map User.id before) /\
     outcome (UserService.getUserById "7"
                [User.mk "7" "Ann" "ann@example.com"; User.mk "7" "Bob" "bob@example.com"]) =
       Normal (respond_ok (Shared.success (User.to_json u)))) /\
  outcome (UserService.getUserById "8" []) =
    Normal (respond 404 (Shared.failure "User not found")).
Proof.
  split.
  - exact (proj1 (proj2 (endpoint_first_match "7"
        [User.mk "7" "Ann" "ann@example.com"; User.mk "7" "Bob" "bob@example.com"]))
        (or_introl eq_refl)).
  - exact (proj2 (proj2 (endpoint_first_match "8" [])) (fun H => H)).
Defined.

(** ** The lookup across the wire *)

Lemma find_unique (u : User.t) (us : list User.t) :
  NoDup (map User.id us) -> In u us ->
  find (fun v => User.id v =? User.id u) us = Some u.
Proof.
  induction us as [|v us IH]; intros Hnd Hin; [destruct Hin|].
  cbn [map] in Hnd. inversion Hnd as [|x l Hnotin Hnd']; subst.
  cbn [find]. destruct Hin as [->|Hin].
  - rewrite String.eqb_refl. reflexivity.
  - destruct (String.eqb_spec (User.id v) (User.id u)) as [E|_].
    + exfalso. apply Hnotin. rewrite E. apply in_map. exact Hin.
    + exact (IH Hnd' Hin).
Qed.



(** X13: getUserById's result is either null or truthy, never a falsy value
    other than null: the caller's [!user] test fires exactly on null. *)
Theorem lookup_result_null_or_truthy (S : Type) (client : HttpClient) (userId : string)
    (s : S) :
  exists v,
    outcome (OrderService.getUserById client userId s) = Normal v /\
    (truthy v = false <-> v = JNull).
Proof.
  rewrite getUserById_run. cbn [outcome]. eexists. split; [reflexivity|].
  destruct (settle client (transport client ("/users/" ++ userId))) as [response|e].
  - unfold payload_of. destruct (body response) as [| | | | |fields];
      try (split; reflexivity).
    destruct (or_null_truthy (assoc "data" fields)) as [-> | Ht].
    + split; reflexivity.
    + split; [intros H; rewrite H in Ht; discriminate Ht | intros E; rewrite E; reflexivity].
  - split; reflexivity.
Qed.

(** X14: listing and lookup agree.  On any array of users with distinct
    ids, GET /users answers 200 with one entry per user, in the array's
    order, and every user it lists is the one GET /users/:id returns for
    that user's id. *)
Theorem listing_and_lookup_agree (us : list User.t) :
  outcome (UserService.getUsers us) =
    Normal (respond_ok (Shared.success (JArr (map User.to_json us)))) /\
  state (UserService.getUsers us) = us /\
  (NoDup (map User.id us) ->
   forall u, In u us ->
     In (User.to_json u) (map User.to_json us) /\
     outcome (UserService.getUserById (User.id u) us) =
       Normal (respond_ok (Shared.success (User.to_json u)))).
Proof.
  rewrite getUsers_run. cbn [outcome state]. split; [reflexivity | split; [reflexivity|]].
  intros Hnd u Hin. split; [apply in_map; exact Hin|].
  rewrite endpoint_run. cbn [outcome]. rewrite (find_unique u us Hnd Hin). reflexivity.
Qed.

Lemma listing_and_lookup_agree_witness :
  outcome (UserService.getUserById "2" UserService.users) =
    Normal (respond_ok (Shared.success
      (User.to_json (User.mk "2" "Jane Smith" "jane@example.com")))).
Proof.
  apply (proj2 (proj2 (listing_and_lookup_agree UserService.users))
           ltac:(repeat constructor; cbn [In]; intuition discriminate)
           (User.mk "2" "Jane Smith" "jane@example.com")).
  right. left. reflexivity.
Defined.

(** ** Routes of the user service *)

Lemma split_slash_trailing (s : string) :
  forallb is_id_char (chars s) = true -> split_slash (s ++ "/") = [s; ""].
Proof.
  induction s as [|c s IH]; simpl; [reflexivity|].
  intros H. apply andb_prop in H. destruct H as [Hc Hs].
  destruct (Ascii.eqb_spec c "/") as [->|_]; [discriminate Hc|].
  rewrite (IH Hs). reflexivity.
Qed.

(** X15: the user service's routes.  [/users] and [/users/] both list the
    users; for a well-formed id, [/users/<id>] and [/users/<id>/] both reach
    the lookup with that id; a path of two well-formed segments under
    [/users] reaches no handler and is answered 404 without the error
    envelope. *)
Theorem user_service_routes (us : list User.t) :
  UserService.app "/users" us = UserService.getUsers us /\
  UserService.app "/users/" us = UserService.getUsers us /\
  (forall id, identifier id = true ->
     UserService.app ("/users/" ++ id) us = UserService.getUserById id us /\
     UserService.app ("/users/" ++ id ++ "/") us = UserService.getUserById id us) /\
  (forall id sub, identifier id = true -> identifier sub = true ->
     exists r,
       outcome (UserService.app ("/users/" ++ id ++ "/" ++ sub) us) = Normal r /\
       status r = 404%Z /\ ~ error_envelope r).
Proof.
  split; [reflexivity | split; [reflexivity | split]].
  - intros id Hid. split; [exact (app_routes_identifier id us Hid)|].
    unfold identifier in Hid. apply andb_prop in Hid. destruct Hid as [Hne Hid].
    unfold UserService.app. cbn [append split_slash Ascii.eqb Bool.eqb].
    rewrite (split_slash_trailing _ Hid). cbn [String.eqb Ascii.eqb Bool.eqb andb].
    apply negb_true_iff in Hne.
    unfold UserService.after_mount. rewrite Hne.
    unfold UserService.userRouter. rewrite Hne. reflexivity.
  - intros id sub Hid Hsub.
    unfold identifier in Hid, Hsub. apply andb_prop in Hid, Hsub.
    destruct Hid as [Hne Hid], Hsub as [Hne' Hsub].
    apply negb_true_iff in Hne, Hne'.
    assert (Hsplit : split_slash (id ++ String "/" sub) = [id; sub]).
    { clear Hne. induction id as [|c id IH]; simpl.
      - rewrite (identifier_no_slash _ Hsub). reflexivity.
      - simpl in Hid. apply andb_prop in Hid. destruct Hid as [Hc Hid].
        destruct (Ascii.eqb_spec c "/") as [->|_]; [discriminate Hc|].
        rewrite (IH Hid). reflexivity. }
    unfold UserService.app. cbn [append split_slash Ascii.eqb Bool.eqb].
    rewrite Hsplit.
    cbn [String.eqb Ascii.eqb Bool.eqb andb].
    unfold UserService.after_mount. rewrite Hne.
    unfold UserService.userRouter. rewrite Hne, Hne'.
    eexists. split; [reflexivity | split; [reflexivity|]].
    intros [message H]. discriminate H.
Qed.

Lemma user_service_routes_witness :
  UserService.app "/users/2/" UserService.users =
  UserService.getUserById "2" UserService.users.
Proof.
  exact (proj2 (proj1 (proj2 (proj2 (user_service_routes UserService.users))) "2" eq_refl)).
Defined.

(** ** The plain variant's lookup client *)

(** X16: the plain getUserById issues one GET of
    [<base>/api/users/<id>]; it resolves exactly when that exchange is
    answered with a 2xx status, and then with the response body as it came,
    nothing unwrapped and nothing coerced; any other exchange makes it
    throw.  The state it runs in is untouched. *)
Theorem plain_getUserById_resolves_iff (S : Type) (client : HttpClient)
    (base id : string) (s : S) :
  let r := PlainOrderService.getUserById client base id s in
  requests r = [base ++ "/api/users/" ++ id] /\
  state r = s /\
  (forall v,
     outcome r = Normal v <->
     exists response,
       transport client (base ++ "/api/users/" ++ id) = NetResponse response /\
       validateStatus (status response) = true /\ v = body response).
Proof.
  cbv zeta. unfold PlainOrderService.getUserById. run_handler.
  destruct (settle client (transport client (base ++ "/api/users/" ++ id)))
    as [response|e] eqn:E; cbn [outcome state requests].
  - rewrite app_nil_r. split; [reflexivity | split; [reflexivity|]].
    apply settle_normal in E. destruct E as [Ho Hs].
    intros v. split.
    + intros H. injection H as <-. exists response. repeat split; assumption.
    + intros (response' & Ho' & _ & ->). rewrite Ho in Ho'. injection Ho' as <-. reflexivity.
  - split; [reflexivity | split; [reflexivity|]].
    intros v. split; [discriminate|].
    intros (response & Ho & Hs & _).
    assert (H : settle client (transport client (base ++ "/api/users/" ++ id)) = Normal response)
      by (apply settle_normal; split; assumption).
    rewrite E in H. discriminate H.
Qed.

(** ** Orders are stored in arrival order *)

